(** * Razorpay payment provider for Medusa: a model of
      [src/modules/razorpay-payment/service.ts]

    The service is a class of [async] methods that talk to the gateway SDK, a
    logger, the clock and Node's [crypto].  Each method is embedded as a
    computation that reads the outside world, records the gateway calls and
    log lines it makes, and settles either with a value or with a thrown
    error, the way the promise it returns would. *)

From Stdlib Require Import Floats.PrimFloat.
From stdpp Require Import gmap strings list fin_maps.

(** ** JavaScript values *)

(** The payloads the service handles are parsed JSON plus [undefined]; a
    number is an IEEE 754 double, as in the language. *)
Set Warnings "-register-all,-clear-no-such-hyp".

Inductive value : Type :=
| VUndefined
| VNull
| VBool (b : bool)
| VNum (n : float)
| VStr (s : string)
| VArr (l : list value)
| VObj (m : gmap string value).

(** A plain object, [Record<string, unknown>]. *)
Abbreviation object := (gmap string value).

(** What [throw] and a rejected promise carry.  Every error the service can
    meet is an object, so reading [error.message] in a [catch] never fails. *)
Inductive MedusaErrorType := INVALID_DATA | PAYMENT_AUTHORIZATION_ERROR.

Inductive thrown : Type :=
| Error (message : string)
| TypeError (message : string)
| Rejected (body : object)
| MedusaError (type : MedusaErrorType) (message : string).

Module Js.

(** [o.k] on an object: an absent property reads as [undefined]. *)
Definition get (o : object) (k : string) : value :=
  default VUndefined (o !! k).

(** [v.k] on a value that is not nullish, for a key [k] that is neither
    inherited nor an index or [length] (the service reads only such keys):
    only objects have own properties of that kind. *)
Definition member (v : value) (k : string) : value :=
  match v with
  | VObj m => get m k
  | _ => VUndefined
  end.

(** Optional chaining [v?.k]. *)
Definition opt_member (v : value) (k : string) : value :=
  match v with
  | VUndefined | VNull => VUndefined
  | _ => member v k
  end.

(** ToBoolean. *)
Definition truthy (v : value) : bool :=
  match v with
  | VUndefined | VNull => false
  | VBool b => b
  | VNum n => negb (is_zero n || is_nan n)
  | VStr s => negb (String.eqb s "")
  | VArr _ | VObj _ => true
  end.

(** [a || b]. *)
Definition or (a b : value) : value := if truthy a then a else b.

(** [v === s] against a string [s]: same type and same characters. *)
Definition strict_eq_string (v : value) (s : string) : bool :=
  match v with
  | VStr t => String.eqb t s
  | _ => false
  end.

(** [{...d}] for an optional object: spreading [undefined] copies nothing. *)
Definition spread (d : option object) : object := default ∅ d.

(** [error.message]. *)
Definition message (e : thrown) : value :=
  match e with
  | Error m | TypeError m | MedusaError _ m => VStr m
  | Rejected body => get body "message"
  end.

End Js.

(** ** The host: what the runtime and the framework provide *)

(** None of these is code of the repository; the service is verified for any
    implementation of them.
    - [new_BigNumber] is the framework's [new BigNumber(raw)], which throws
      on a raw value it does not accept;
    - [createHmac_sha256_hex key body] is
      [crypto.createHmac("sha256", key).update(body).digest("hex")];
    - [Buffer_toString] is [Buffer.prototype.toString()];
    - [ToString] is the conversion a template literal applies to its holes;
    - [parseFloat], [Math_round] and [toUpperCase] are the built-ins. *)
Class Host := {
  BigNumber : Type;
  new_BigNumber : value → thrown + BigNumber;
  createHmac_sha256_hex : string → string → string;
  Buffer_toString : list Byte.byte → string;
  ToString : value → string;
  parseFloat : string → float;
  Math_round : float → float;
  toUpperCase : string → string;
}.

(** ** The outside world and the effects of a call *)

(** The gateway answers a request with an order object or rejects; the clock
    is read at most once per call. *)
Record World := {
  orders_create : object → thrown + object;
  orders_fetch : value → thrown + object;
  Date_now : float;
  Date_toISOString : string;
}.

(** A request to the gateway SDK, [razorpay_.<resource>.<method>(arg)]. *)
Record GatewayCall := {
  resource : string;
  method : string;
  argument : value;
}.

Inductive effect : Type :=
| Gateway (c : GatewayCall)
| LogInfo (line : string)
| LogError (line : string).

(** An [async] method body: the effects it performs, in order, and how its
    promise settles. *)
Definition Task (A : Type) : Type := World → list effect * (thrown + A).

#[global] Instance Task_ret : MRet Task :=
  λ A a _, ([], inr a).

#[global] Instance Task_bind : MBind Task :=
  λ A B k m w,
    match m w with
    | (t, inl e) => (t, inl e)
    | (t, inr a) => let '(t', r) := k a w in (t ++ t', r)
    end.

#[global] Instance Task_throw : MThrow thrown Task :=
  λ A e _, ([], inl e).

(** [try { body } catch (error) { handler error }]. *)
Definition try_catch {A} (body : Task A) (handler : thrown → Task A) : Task A :=
  λ w,
    match body w with
    | (t, inl e) => let '(t', r) := handler e w in (t ++ t', r)
    | (t, inr a) => (t, inr a)
    end.

(** A step that can throw but has no other effect. *)
Definition settle {A} (r : thrown + A) : Task A := λ _, ([], r).

Definition trace {A} (r : list effect * (thrown + A)) : list effect := r.1.
Definition outcome {A} (r : list effect * (thrown + A)) : thrown + A := r.2.

(** The gateway calls among the effects of a run. *)
Definition gateway_calls (t : list effect) : list GatewayCall :=
  omap (λ e, match e with Gateway c => Some c | _ => None end) t.

Definition razorpay_orders_create (options : object) : Task object :=
  λ w, ([Gateway {| resource := "orders"; method := "create";
                    argument := VObj options |}],
        orders_create w options).

Definition razorpay_orders_fetch (id : value) : Task object :=
  λ w, ([Gateway {| resource := "orders"; method := "fetch"; argument := id |}],
        orders_fetch w id).

Definition logger_info (line : string) : Task () := λ _, ([LogInfo line], inr ()).
Definition logger_error (line : string) : Task () := λ _, ([LogError line], inr ()).

Definition new_Date_toISOString : Task string := λ w, ([], inr (Date_toISOString w)).
Definition Date_now_ : Task float := λ w, ([], inr (Date_now w)).

(** ** Types of the provider interface *)

Record Options := {
  key_id : string;
  key_secret : string;
  webhook_secret : option string;
}.

(** [rawData: string | Buffer]. *)
Inductive RawData :=
| RawString (s : string)
| RawBuffer (b : list Byte.byte).

(** [ProviderWebhookPayload["payload"]]. *)
Record WebhookPayload := {
  wp_data : object;
  wp_rawData : RawData;
  wp_headers : object;
}.

(** [data?: Record<string, unknown>], the stored session data every lifecycle
    input carries. *)
Record PaymentInput := {
  in_data : option object;
}.

Record RefundPaymentInput := {
  refund_amount : value;
  refund_data : option object;
}.

Record UpdatePaymentInput := {
  update_amount : value;
  update_currency_code : string;
  update_data : option object;
}.

Record InitiatePaymentInput := {
  init_amount : value;
  init_currency_code : string;
  init_context : option object;
}.

(** [{ status?, data? }], the shape of every lifecycle output. *)
Record PaymentOutput := {
  out_status : option string;
  out_data : option object;
}.

(** [data.id] where [data] may be [undefined]. *)
Definition data_member (d : option object) (k : string) : Task value :=
  match d with
  | Some o => mret (Js.get o k)
  | None => mthrow (TypeError ("Cannot read properties of undefined (reading '" +:+ k +:+ "')"))
  end.

Section Service.
Context `{Host}.

(** [WebhookActionResult]. *)
Record WebhookActionResult := {
  action : string;
  session_id : value;
  amount : BigNumber;
}.

Variable options_ : Options.

(** [typeof rawData === "string" ? rawData : rawData.toString()]. *)
Definition body_of (rawData : RawData) : string :=
  match rawData with
  | RawString s => s
  | RawBuffer b => Buffer_toString b
  end.

(** The signature check at the top of [getWebhookActionAndData]. *)
Definition verify_signature (payload : WebhookPayload) : Task () :=
  match webhook_secret options_ with
  | Some secret =>
      if Js.truthy (VStr secret) then
        let expectedSignature := Js.get (wp_headers payload) "x-razorpay-signature" in
        let body := body_of (wp_rawData payload) in
        let generatedSignature := createHmac_sha256_hex secret body in
        if negb (Js.strict_eq_string expectedSignature generatedSignature)
        then mthrow (Error "Invalid webhook signature")
        else mret ()
      else mret ()
  | None => mret ()
  end.

Definition paymentEntity (data : object) : value :=
  Js.opt_member (Js.opt_member (Js.get data "payload") "payment") "entity".

Definition orderEntity (data : object) : value :=
  Js.opt_member (Js.opt_member (Js.get data "payload") "order") "entity".

(** The object the three payment cases build. *)
Definition payment_event (act : string) (data : object) : Task WebhookActionResult :=
  let sid := Js.or (Js.opt_member (orderEntity data) "receipt")
                   (Js.opt_member (paymentEntity data) "order_id") in
  amt ← settle (new_BigNumber (Js.or (Js.opt_member (paymentEntity data) "amount")
                                     (VNum 0)));
  mret {| action := act; session_id := sid; amount := amt |}.

Definition getWebhookActionAndData (payload : WebhookPayload) : Task WebhookActionResult :=
  let data := wp_data payload in
  try_catch
    (verify_signature payload;;
     let event := Js.get data "event" in
     if Js.strict_eq_string event "payment.authorized" then
       payment_event "authorized" data
     else if Js.strict_eq_string event "payment.captured" then
       payment_event "captured" data
     else if Js.strict_eq_string event "payment.failed" then
       payment_event "failed" data
     else
       zero ← settle (new_BigNumber (VNum 0));
       mret {| action := "not_supported"; session_id := VStr ""; amount := zero |})
    (λ error,
       logger_error ("Webhook processing failed: " +:+ ToString (Js.message error));;
       zero ← settle (new_BigNumber (VNum 0));
       mret {| action := "failed"; session_id := VStr ""; amount := zero |}).

(** [static validateOptions(options)]: throws unless both keys are truthy. *)
Definition validateOptions (options : object) : thrown + () :=
  if negb (Js.truthy (Js.get options "key_id")) then
    inl (MedusaError INVALID_DATA
           "Razorpay key_id is required in the provider's options.")
  else if negb (Js.truthy (Js.get options "key_secret")) then
    inl (MedusaError INVALID_DATA
           "Razorpay key_secret is required in the provider's options.")
  else inr ().

(** [amount.toString()]: a method call, so it throws on a nullish receiver. *)
Definition call_toString (v : value) : Task string :=
  match v with
  | VUndefined | VNull =>
      mthrow (TypeError "Cannot read properties of undefined (reading 'toString')")
  | _ => mret (ToString v)
  end.

Definition initiatePayment (input : InitiatePaymentInput) : Task PaymentOutput :=
  try_catch
    (text ← call_toString (init_amount input);
     let amountInSmallestUnit := Math_round (parseFloat text * 100)%float in
     now ← Date_now_;
     customer ← data_member (init_context input) "customer";
     let notes : object :=
       {[ "medusa_payment_session" := VBool true;
          "customer_email" := Js.or (Js.opt_member customer "email") (VStr "");
          "customer_id" := Js.or (Js.opt_member customer "id") (VStr "") ]} in
     let options : object :=
       {[ "amount" := VNum amountInSmallestUnit;
          "currency" := VStr (toUpperCase (init_currency_code input));
          "receipt" := VStr ("order_" +:+ ToString (VNum now));
          "notes" := VObj notes ]} in
     order ← razorpay_orders_create options;
     logger_info ("Razorpay order created: " +:+ ToString (Js.get order "id"));;
     mret {| out_status := None;
             out_data := Some {[ "id" := Js.get order "id";
                                 "amount" := Js.get order "amount";
                                 "currency" := Js.get order "currency";
                                 "receipt" := Js.get order "receipt";
                                 "status" := Js.get order "status";
                                 "created_at" := Js.get order "created_at";
                                 "key_id" := VStr (key_id options_) ]} |})
    (λ error,
       logger_error ("Failed to create Razorpay order: " +:+ ToString (Js.message error));;
       mthrow (MedusaError PAYMENT_AUTHORIZATION_ERROR
                 ("Failed to initiate payment with Razorpay: "
                    +:+ ToString (Js.message error)))).

Definition authorizePayment (input : PaymentInput) : Task PaymentOutput :=
  let data := in_data input in
  try_catch
    (id ← data_member data "id";
     order ← razorpay_orders_fetch id;
     logger_info ("Authorizing Razorpay payment for order: "
                    +:+ ToString (Js.get order "id"));;
     authorized_at ← new_Date_toISOString;
     mret {| out_status := Some "authorized";
             out_data := Some (<["authorized_at" := VStr authorized_at]>
                                 (<["order_status" := Js.get order "status"]>
                                    (Js.spread data))) |})
    (λ error,
       logger_error ("Failed to authorize Razorpay payment: "
                       +:+ ToString (Js.message error));;
       mthrow (MedusaError PAYMENT_AUTHORIZATION_ERROR
                 ("Failed to authorize payment: " +:+ ToString (Js.message error)))).

Definition capturePayment (input : PaymentInput) : Task PaymentOutput :=
  let data := in_data input in
  try_catch
    (id ← data_member data "id";
     logger_info ("Capturing Razorpay payment for order: " +:+ ToString id);;
     captured_at ← new_Date_toISOString;
     mret {| out_status := None;
             out_data := Some (<["status" := VStr "captured"]>
                                 (<["captured_at" := VStr captured_at]>
                                    (Js.spread data))) |})
    (λ error,
       logger_error ("Failed to capture Razorpay payment: "
                       +:+ ToString (Js.message error));;
       mthrow (MedusaError PAYMENT_AUTHORIZATION_ERROR
                 ("Failed to capture payment: " +:+ ToString (Js.message error)))).

(** The [switch (order.status)] of [getPaymentStatus]. *)
Definition map_order_status (order_status : value) : string :=
  if Js.strict_eq_string order_status "created" then "pending"
  else if Js.strict_eq_string order_status "attempted" then "pending"
  else if Js.strict_eq_string order_status "paid" then "authorized"
  else "pending".

Definition getPaymentStatus (input : PaymentInput) : Task PaymentOutput :=
  let data := in_data input in
  try_catch
    (id ← data_member data "id";
     order ← razorpay_orders_fetch id;
     let status := map_order_status (Js.get order "status") in
     mret {| out_status := Some status;
             out_data := Some (<["order_status" := Js.get order "status"]>
                                 (Js.spread data)) |})
    (λ error,
       logger_error ("Failed to get Razorpay payment status: "
                       +:+ ToString (Js.message error));;
       mret {| out_status := Some "pending"; out_data := None |}).

Definition updatePayment (input : UpdatePaymentInput) : Task PaymentOutput :=
  try_catch
    (updated_at ← new_Date_toISOString;
     mret {| out_status := None;
             out_data := Some (<["updated_at" := VStr updated_at]>
                                 (Js.spread (update_data input))) |})
    (λ error,
       logger_error ("Failed to update Razorpay payment: "
                       +:+ ToString (Js.message error));;
       mthrow (MedusaError PAYMENT_AUTHORIZATION_ERROR
                 ("Failed to update payment: " +:+ ToString (Js.message error)))).

(** [retrievePayment] returns the fetched order's fields, not wrapped. *)
Definition retrievePayment (input : PaymentInput) : Task object :=
  try_catch
    (id ← data_member (in_data input) "id";
     order ← razorpay_orders_fetch id;
     mret ({[ "id" := Js.get order "id";
              "amount" := Js.get order "amount";
              "currency" := Js.get order "currency";
              "status" := Js.get order "status";
              "created_at" := Js.get order "created_at" ]} : object))
    (λ error,
       logger_error ("Failed to retrieve Razorpay payment: "
                       +:+ ToString (Js.message error));;
       mthrow (MedusaError PAYMENT_AUTHORIZATION_ERROR
                 ("Failed to retrieve payment: " +:+ ToString (Js.message error)))).

Definition deletePayment (input : PaymentInput) : Task PaymentOutput :=
  mret {| out_status := None; out_data := in_data input |}.

Definition cancelPayment (input : PaymentInput) : Task PaymentOutput :=
  cancelled_at ← new_Date_toISOString;
  mret {| out_status := None;
          out_data := Some (<["cancelled_at" := VStr cancelled_at]>
                              (Js.spread (in_data input))) |}.

Definition refundPayment (input : RefundPaymentInput) : Task PaymentOutput :=
  let amount := refund_amount input in
  let data := refund_data input in
  try_catch
    (refunded_at ← new_Date_toISOString;
     mret {| out_status := None;
             out_data := Some (<["refunded_at" := VStr refunded_at]>
                                 (<["refunded_amount" := amount]>
                                    (Js.spread data))) |})
    (λ error,
       logger_error ("Failed to refund Razorpay payment: "
                       +:+ ToString (Js.message error));;
       mthrow (MedusaError PAYMENT_AUTHORIZATION_ERROR
                 ("Failed to refund payment: " +:+ ToString (Js.message error)))).

(** Every way the framework can call into the provider.  (The constructor
    only builds the SDK client and [validateOptions] only inspects its
    argument; neither is a request.) *)
Inductive invocation : Type :=
| InitiatePayment (input : InitiatePaymentInput)
| AuthorizePayment (input : PaymentInput)
| CapturePayment (input : PaymentInput)
| GetPaymentStatus (input : PaymentInput)
| GetWebhookActionAndData (payload : WebhookPayload)
| UpdatePayment (input : UpdatePaymentInput)
| RetrievePayment (input : PaymentInput)
| DeletePayment (input : PaymentInput)
| CancelPayment (input : PaymentInput)
| RefundPayment (input : RefundPaymentInput).

(** The effects of one invocation. *)
Definition effects_of (i : invocation) (w : World) : list effect :=
  match i with
  | InitiatePayment input => trace (initiatePayment input w)
  | AuthorizePayment input => trace (authorizePayment input w)
  | CapturePayment input => trace (capturePayment input w)
  | GetPaymentStatus input => trace (getPaymentStatus input w)
  | GetWebhookActionAndData payload => trace (getWebhookActionAndData payload w)
  | UpdatePayment input => trace (updatePayment input w)
  | RetrievePayment input => trace (retrievePayment input w)
  | DeletePayment input => trace (deletePayment input w)
  | CancelPayment input => trace (cancelPayment input w)
  | RefundPayment input => trace (refundPayment input w)
  end.

End Service.

(** The three payment events and the action each one maps to. *)
Definition payment_actions : list (string * string) :=
  [("payment.authorized", "authorized");
   ("payment.captured", "captured");
   ("payment.failed", "failed")].

(** The gateway order statuses the status table lists. *)
Definition status_table : list (string * string) :=
  [("created", "pending"); ("attempted", "pending"); ("paid", "authorized")].

(** A gateway call that creates or fetches an order. *)
Definition create_or_fetch_order (c : GatewayCall) : Prop :=
  resource c = "orders" ∧ (method c = "create" ∨ method c = "fetch").

(** A payload passes for authentic when no usable secret is set, or when its
    signature header is the hex HMAC-SHA256 of its raw body under the secret. *)
Definition authenticated `{Host} (options_ : Options) (payload : WebhookPayload) : Prop :=
  match webhook_secret options_ with
  | Some secret =>
      secret = "" ∨
      Js.get (wp_headers payload) "x-razorpay-signature"
        = VStr (createHmac_sha256_hex secret (body_of (wp_rawData payload)))
  | None => True
  end.



(** The error a run rejects with, if it rejects. *)
Definition thrown_by {A} (r : list effect * (thrown + A)) : option thrown :=
  match outcome r with
  | inl e => Some e
  | inr _ => None
  end.

(** The rejection of one invocation, if any. *)
Definition failure_of `{Host} (options_ : Options) (i : invocation) (w : World)
    : option thrown :=
  match i with
  | InitiatePayment input => thrown_by (initiatePayment options_ input w)
  | AuthorizePayment input => thrown_by (authorizePayment input w)
  | CapturePayment input => thrown_by (capturePayment input w)
  | GetPaymentStatus input => thrown_by (getPaymentStatus input w)
  | GetWebhookActionAndData payload => thrown_by (getWebhookActionAndData options_ payload w)
  | UpdatePayment input => thrown_by (updatePayment input w)
  | RetrievePayment input => thrown_by (retrievePayment input w)
  | DeletePayment input => thrown_by (deletePayment input w)
  | CancelPayment input => thrown_by (cancelPayment input w)
  | RefundPayment input => thrown_by (refundPayment input w)
  end.

(** [v == null]: the receivers on which a property read or method call throws. *)
Definition nullish (v : value) : bool :=
  match v with
  | VUndefined | VNull => true
  | _ => false
  end.

(** ** The project configuration ([medusa-config]) *)

(** [process.env.NAME]: a string, or [undefined] when the variable is unset. *)
Definition process_env (env : gmap string string) (name : string) : value :=
  match env !! name with
  | Some s => VStr s
  | None => VUndefined
  end.

(** [projectConfig.http], the same in both configuration files. *)
Definition http (env : gmap string string) : object :=
  {[ "storeCors" := process_env env "STORE_CORS";
     "adminCors" := process_env env "ADMIN_CORS";
     "authCors" := process_env env "AUTH_CORS";
     "jwtSecret" := Js.or (process_env env "JWT_SECRET") (VStr "supersecret");
     "cookieSecret" := Js.or (process_env env "COOKIE_SECRET") (VStr "supersecret") ]}.

(** [projectConfig] of the larger configuration file. *)
Definition projectConfig (env : gmap string string) : object :=
  {[ "workerMode" := process_env env "MEDUSA_WORKER_MODE";
     "databaseUrl" := process_env env "DATABASE_URL";
     "databaseLogging" :=
       VBool (negb (Js.strict_eq_string (process_env env "NODE_ENV") "production"));
     "http" := VObj (http env) ]}.

(** The [options] handed to the Razorpay provider, the same in both files. *)
Definition razorpay_options (env : gmap string string) : object :=
  {[ "key_id" := process_env env "RAZORPAY_ID";
     "key_secret" := process_env env "RAZORPAY_SECRET";
     "webhook_secret" := process_env env "RAZORPAY_WEBHOOK_SECRET" ]}.

(** The payment module entry of [modules]. *)
Definition payment_module (env : gmap string string) : object :=
  {[ "resolve" := VStr "@medusajs/medusa/payment";
     "options" := VObj
       {[ "providers" := VArr
            [VObj {[ "resolve" := VStr "./src/modules/razorpay-payment";
                     "id" := VStr "razorpay";
                     "options" := VObj (razorpay_options env) ]}] ]} ]}.

(** The argument of [defineConfig] in the smaller configuration file. *)
Definition medusa_config (env : gmap string string) : object :=
  {[ "projectConfig" := VObj
       {[ "databaseUrl" := process_env env "DATABASE_URL";
          "http" := VObj (http env) ]};
     "modules" := VArr [VObj (payment_module env)] ]}.

(** ** A stand-in host and sample data, to run the model on concrete inputs *)

Module Sample.

(** A stand-in for the framework's class: accepts strings and numbers other
    than NaN, keeps the raw value, and throws on anything else. *)
Definition sample_BigNumber (raw : value) : thrown + value :=
  match raw with
  | VNum n => if is_nan n then inl (Error "Invalid BigNumber value") else inr raw
  | VStr _ => inr raw
  | _ => inl (Error "Invalid BigNumber value")
  end.

(** Not a real MAC: only a function of key and body that the examples can
    compute. *)
Definition sample_mac (key body : string) : string :=
  "mac(" +:+ key +:+ "," +:+ body +:+ ")".

Definition sample_ToString (v : value) : string :=
  match v with
  | VUndefined => "undefined"
  | VNull => "null"
  | VBool true => "true"
  | VBool false => "false"
  | VStr s => s
  | VNum _ => "<number>"
  | VArr _ => "<array>"
  | VObj _ => "[object Object]"
  end.

Definition host : Host := {|
  BigNumber := value;
  new_BigNumber := sample_BigNumber;
  createHmac_sha256_hex := sample_mac;
  Buffer_toString := String.string_of_list_byte;
  ToString := sample_ToString;
  parseFloat := λ _, 0%float;
  Math_round := λ x, x;
  toUpperCase := λ s, s;
|}.

Definition with_secret : Options :=
  {| key_id := "rzp_test_key"; key_secret := "s3cret"; webhook_secret := Some "whsec" |}.

Definition without_secret : Options :=
  {| key_id := "rzp_test_key"; key_secret := "s3cret"; webhook_secret := None |}.

(** A gateway that knows one order, [order_1], in the given status. *)
Definition gateway_order (status : string) : object :=
  {[ "id" := VStr "order_1"; "amount" := VNum 49900; "currency" := VStr "INR";
     "status" := VStr status ]}.

Definition world (status clock : string) : World := {|
  orders_create := λ _, inr (gateway_order "created");
  orders_fetch := λ id,
    if Js.strict_eq_string id "order_1" then inr (gateway_order status)
    else inl (Rejected {[ "statusCode" := VNum 400 ]});
  Date_now := 1700000000000%float;
  Date_toISOString := clock;
|}.

Definition noon : string := "2024-01-01T12:00:00.000Z".
Definition midnight : string := "2024-01-02T00:00:00.000Z".

Definition stored : object :=
  {[ "id" := VStr "order_1"; "amount" := VNum 49900; "currency" := VStr "INR" ]}.

Definition unknown_order : object := {[ "id" := VStr "order_404" ]}.

(** An environment with the gateway keys but no webhook secret. *)
Definition env : gmap string string :=
  {[ "RAZORPAY_ID" := "rzp_test_key"; "RAZORPAY_SECRET" := "s3cret";
     "NODE_ENV" := "production"; "JWT_SECRET" := "" ]}.

Definition checkout : InitiatePaymentInput :=
  {| init_amount := VNum 499; init_currency_code := "inr"; init_context := Some ∅ |}.

(** What the sample gateway's answer to [checkout] turns into. *)
Definition checkout_result : PaymentOutput :=
  {| out_status := None;
     out_data := Some {[ "id" := VStr "order_1"; "amount" := VNum 49900;
                         "currency" := VStr "INR"; "receipt" := VUndefined;
                         "status" := VStr "created"; "created_at" := VUndefined;
                         "key_id" := VStr "rzp_test_key" ]} |}.

(** A webhook body with an event name and nothing else. *)
Definition bare_event (event : string) : WebhookPayload := {|
  wp_data := {[ "event" := VStr event ]};
  wp_rawData := RawString "{}";
  wp_headers := ∅;
|}.

Definition refund_of_stored : RefundPaymentInput :=
  {| refund_amount := VNum 49900; refund_data := Some stored |}.

(** A webhook body: event [event], paid amount 49900 paise, order [order_1]
    with receipt [order_1700000000000]. *)
Definition webhook_data (event : string) : object :=
  {[ "event" := VStr event;
     "payload" := VObj
       {[ "payment" := VObj {[ "entity" := VObj
            {[ "order_id" := VStr "order_1"; "amount" := VNum 49900 ]} ]};
          "order" := VObj {[ "entity" := VObj
            {[ "receipt" := VStr "order_1700000000000" ]} ]} ]} ]}.

Definition webhook (event signature : string) : WebhookPayload := {|
  wp_data := webhook_data event;
  wp_rawData := RawString "{}";
  wp_headers := {[ "x-razorpay-signature" := VStr signature ]};
|}.

Definition unsigned_webhook (event : string) : WebhookPayload := {|
  wp_data := webhook_data event;
  wp_rawData := RawString "{}";
  wp_headers := ∅;
|}.

(** A stand-in for the decoding [Buffer.prototype.toString()] performs: exact
    on ASCII bytes and on the byte [0xFF], which is never part of a UTF-8
    encoding and decodes to U+FFFD (re-encoded as [EF BF BD]).  A string
    stands for the bytes of its UTF-8 encoding. *)
Definition decode_lossy (bytes : list Byte.byte) : string :=
  String.string_of_list_byte
    (flat_map (λ b, match b with
                    | Byte.xff => [Byte.xef; Byte.xbf; Byte.xbd]
                    | _ => [b]
                    end) bytes).

(** The stand-in host with that decoding. *)
Definition decoding_host : Host := {|
  BigNumber := value;
  new_BigNumber := sample_BigNumber;
  createHmac_sha256_hex := sample_mac;
  Buffer_toString := decode_lossy;
  ToString := sample_ToString;
  parseFloat := λ _, 0%float;
  Math_round := λ x, x;
  toUpperCase := λ s, s;
|}.

(** A request body of two bytes, [0x7B] and [0xFF]: not valid UTF-8. *)
Definition raw_bytes : list Byte.byte := [Byte.x7b; Byte.xff].

(** A webhook delivered with a Buffer body. *)
Definition buffer_webhook (event signature : string) : WebhookPayload := {|
  wp_data := webhook_data event;
  wp_rawData := RawBuffer raw_bytes;
  wp_headers := {[ "x-razorpay-signature" := VStr signature ]};
|}.


End Sample.

(** ** Runs on the sample data *)

Example run_status_paid :
  outcome (getPaymentStatus (H:=Sample.host) {| in_data := Some Sample.stored |}
             (Sample.world "paid" Sample.noon))
  = inr {| out_status := Some "authorized";
           out_data := Some (<["order_status" := VStr "paid"]> Sample.stored) |}.
Proof. reflexivity. Qed.

Example run_status_unknown_order :
  getPaymentStatus (H:=Sample.host) {| in_data := Some Sample.unknown_order |}
    (Sample.world "paid" Sample.noon)
  = ([Gateway {| resource := "orders"; method := "fetch"; argument := VStr "order_404" |};
      LogError "Failed to get Razorpay payment status: undefined"],
     inr {| out_status := Some "pending"; out_data := None |}).
Proof. reflexivity. Qed.

Example run_webhook_captured :
  outcome (getWebhookActionAndData (H:=Sample.host) Sample.with_secret
             (Sample.webhook "payment.captured" "mac(whsec,{})")
             (Sample.world "paid" Sample.noon))
  = inr (@Build_WebhookActionResult Sample.host
           "captured" (VStr "order_1700000000000") (VNum 49900)).
Proof. reflexivity. Qed.

Example run_webhook_bad_signature :
  getWebhookActionAndData (H:=Sample.host) Sample.with_secret
    (Sample.webhook "payment.captured" "forged")
    (Sample.world "paid" Sample.noon)
  = ([LogError "Webhook processing failed: Invalid webhook signature"],
     inr (@Build_WebhookActionResult Sample.host "failed" (VStr "") (VNum 0))).
Proof. reflexivity. Qed.

Example run_initiate_calls :
  gateway_calls (effects_of (H:=Sample.host) Sample.without_secret
     (InitiatePayment {| init_amount := VNum 499; init_currency_code := "inr";
                         init_context := Some ∅ |})
     (Sample.world "created" Sample.noon))
  = [{| resource := "orders"; method := "create";
        argument := VObj {[ "amount" := VNum 0;
                            "currency" := VStr "inr";
                            "receipt" := VStr "order_<number>";
                            "notes" := VObj {[ "medusa_payment_session" := VBool true;
                                               "customer_email" := VStr "";
                                               "customer_id" := VStr "" ]} ]} |}].
Proof. vm_compute. reflexivity. Qed.

(** ** Properties of the provider *)

Section Correctness.
Context `{Host}.
Implicit Types (w : World) (payload : WebhookPayload).

Lemma strict_eq_string_spec (v : value) (s : string) :
  Js.strict_eq_string v s = true ↔ v = VStr s.
Proof.
  destruct v; simpl; try (split; [discriminate | congruence]).
  rewrite String.eqb_eq. split; congruence.
Qed.

Lemma strict_eq_string_refl (s : string) : Js.strict_eq_string (VStr s) s = true.
Proof. by apply strict_eq_string_spec. Qed.

Lemma strict_eq_string_ne (v : value) (s : string) :
  v ≠ VStr s → Js.strict_eq_string v s = false.
Proof.
  intros Hne. destruct (Js.strict_eq_string v s) eqn:E; [|done].
  by apply strict_eq_string_spec in E.
Qed.

(** An authentic payload passes the signature check, silently. *)
Lemma verify_signature_pass (options_ : Options) payload w :
  authenticated options_ payload →
  verify_signature options_ payload w = ([], inr ()).
Proof.
  unfold authenticated, verify_signature.
  destruct (webhook_secret options_) as [secret|]; [|done].
  intros [-> | Hsig]; [done|].
  rewrite Hsig, strict_eq_string_refl. by destruct (Js.truthy (VStr secret)).
Qed.

(** With a usable secret, any other header value makes the check throw. *)
Lemma verify_signature_reject (options_ : Options) secret payload w :
  webhook_secret options_ = Some secret →
  secret ≠ "" →
  Js.get (wp_headers payload) "x-razorpay-signature"
    ≠ VStr (createHmac_sha256_hex secret (body_of (wp_rawData payload))) →
  verify_signature options_ payload w = ([], inl (Error "Invalid webhook signature")).
Proof.
  intros Hsec Hs Hne. unfold verify_signature. rewrite Hsec. simpl.
  apply String.eqb_neq in Hs. rewrite Hs. simpl.
  by rewrite (strict_eq_string_ne _ _ Hne).
Qed.

(** The run of [getWebhookActionAndData] once the check has passed: the
    event switch under the method's [catch]. *)
Lemma webhook_after_check (options_ : Options) payload w :
  verify_signature options_ payload w = ([], inr ()) →
  getWebhookActionAndData options_ payload w
  = getWebhookActionAndData
      {| key_id := key_id options_; key_secret := key_secret options_;
         webhook_secret := None |} payload w.
Proof.
  intros Hv. unfold getWebhookActionAndData, try_catch, mbind, Task_bind.
  rewrite Hv. reflexivity.
Qed.

(** The same method on an authentic payload, unfolded to the event switch. *)
Ltac webhook_switch Hauth :=
  rewrite (webhook_after_check _ _ _ (verify_signature_pass _ _ _ Hauth));
  unfold getWebhookActionAndData, verify_signature, try_catch, payment_event,
    outcome, mbind, Task_bind, mret, Task_ret, settle; simpl.

(** C1 (amended). With a webhook secret configured, what is signed is the
    body as text: [rawData] itself when it is a string, otherwise
    [rawData.toString()], the decoding of the Buffer.  The provider compares
    the [x-razorpay-signature] header with the hex HMAC-SHA256 of that text
    keyed by the secret; whenever the two differ the result is action
    ["failed"] with an empty session id and amount zero. *)
Theorem webhook_signature_mismatch_fails
    (options_ : Options) (secret : string) payload w (zero : BigNumber) :
  webhook_secret options_ = Some secret →
  secret ≠ "" →
  new_BigNumber (VNum 0) = inr zero →
  Js.get (wp_headers payload) "x-razorpay-signature"
    ≠ VStr (createHmac_sha256_hex secret
              match wp_rawData payload with
              | RawString text => text
              | RawBuffer bytes => Buffer_toString bytes
              end) →
  outcome (getWebhookActionAndData options_ payload w)
  = inr {| action := "failed"; session_id := VStr ""; amount := zero |}.
Proof.
  intros Hsec Hs Hzero Hne.
  unfold getWebhookActionAndData, try_catch, outcome, mbind, Task_bind.
  rewrite (verify_signature_reject _ _ _ _ Hsec Hs Hne).
  unfold settle, logger_error, mret, Task_ret. simpl.
  by rewrite Hzero.
Qed.



(** The other side of C2's assumption: when the constructor throws on the
    payload's amount, the method's [catch] takes over. *)
Lemma webhook_payment_event_rejected_amount
    (options_ : Options) payload w (event act : string) (error : thrown)
    (zero : BigNumber) :
  authenticated options_ payload →
  Js.get (wp_data payload) "event" = VStr event →
  (event, act) ∈ payment_actions →
  new_BigNumber (Js.or (Js.opt_member (paymentEntity (wp_data payload)) "amount")
                       (VNum 0)) = inl error →
  new_BigNumber (VNum 0) = inr zero →
  outcome (getWebhookActionAndData options_ payload w)
  = inr {| action := "failed"; session_id := VStr ""; amount := zero |}.
Proof.
  intros Hauth Hev Hact Hamt Hzero. webhook_switch Hauth.
  rewrite Hev. unfold payment_actions in Hact.
  repeat (apply elem_of_cons in Hact as [[= -> ->] | Hact];
          [simpl; by rewrite Hamt, Hzero|]).
  by apply elem_of_nil in Hact.
Qed.

(** C3. On an authentic payload with any other event, the action is
    ["not_supported"], the session id empty and the amount zero. *)
Theorem webhook_other_event
    (options_ : Options) payload w (zero : BigNumber) :
  authenticated options_ payload →
  Js.get (wp_data payload) "event" ≠ VStr "payment.authorized" →
  Js.get (wp_data payload) "event" ≠ VStr "payment.captured" →
  Js.get (wp_data payload) "event" ≠ VStr "payment.failed" →
  new_BigNumber (VNum 0) = inr zero →
  outcome (getWebhookActionAndData options_ payload w)
  = inr {| action := "not_supported"; session_id := VStr ""; amount := zero |}.
Proof.
  intros Hauth Ha Hc Hf Hzero. webhook_switch Hauth.
  by rewrite !strict_eq_string_ne, Hzero.
Qed.

(** Unfolds a lifecycle method down to the world's answers. *)
Ltac run_method :=
  unfold getPaymentStatus, authorizePayment, capturePayment, retrievePayment,
    initiatePayment, updatePayment, refundPayment, cancelPayment, deletePayment,
    try_catch, data_member, call_toString, razorpay_orders_fetch,
    razorpay_orders_create, logger_info, logger_error, new_Date_toISOString,
    Date_now_, settle, outcome, trace,
    mbind, Task_bind, mret, Task_ret, mthrow, Task_throw; simpl.

(** C4. When the order fetch succeeds, a gateway status of ["created"] or
    ["attempted"] is reported as ["pending"] and ["paid"] as ["authorized"]. *)
Theorem getPaymentStatus_table
    (data order : object) w (gateway_status status : string) :
  orders_fetch w (Js.get data "id") = inr order →
  Js.get order "status" = VStr gateway_status →
  (gateway_status, status) ∈ status_table →
  outcome (getPaymentStatus {| in_data := Some data |} w)
  = inr {| out_status := Some status;
           out_data := Some (<["order_status" := VStr gateway_status]> data) |}.
Proof.
  intros Hfetch Hst Hrow. run_method. rewrite Hfetch. simpl. rewrite Hst.
  unfold status_table in Hrow.
  repeat (apply elem_of_cons in Hrow as [[= -> ->] | Hrow]; [done|]).
  by apply elem_of_nil in Hrow.
Qed.

(** C5. When the order fetch throws, [getPaymentStatus] swallows the error
    and reports ["pending"]. *)
Theorem getPaymentStatus_fetch_error (data : object) w (error : thrown) :
  orders_fetch w (Js.get data "id") = inl error →
  outcome (getPaymentStatus {| in_data := Some data |} w)
  = inr {| out_status := Some "pending"; out_data := None |}.
Proof. intros Hfetch. run_method. by rewrite Hfetch. Qed.

(** C9. When the order fetch succeeds, [authorizePayment] reports
    ["authorized"] whatever the status of the fetched order. *)
Theorem authorizePayment_always_authorized (data order : object) w :
  orders_fetch w (Js.get data "id") = inr order →
  outcome (authorizePayment {| in_data := Some data |} w)
  = inr {| out_status := Some "authorized";
           out_data := Some (<["authorized_at" := VStr (Date_toISOString w)]>
                               (<["order_status" := Js.get order "status"]> data)) |}.
Proof. intros Hfetch. run_method. by rewrite Hfetch. Qed.

(** C6. [deletePayment] hands back the stored data as it is and
    [cancelPayment] the stored data plus [cancelled_at], neither calling the
    gateway; and whatever the framework invokes, the only gateway calls are
    [orders.create] and [orders.fetch]. *)
Theorem cancel_delete_are_local (options_ : Options) w :
  (∀ input, deletePayment input w
            = ([], inr {| out_status := None; out_data := in_data input |}))
  ∧ (∀ input, ∃ data' : object,
        cancelPayment input w
        = ([], inr {| out_status := None; out_data := Some data' |})
        ∧ data' !! "cancelled_at" = Some (VStr (Date_toISOString w))
        ∧ ∀ k, k ≠ "cancelled_at" → data' !! k = Js.spread (in_data input) !! k)
  ∧ (∀ i, Forall create_or_fetch_order (gateway_calls (effects_of options_ i w))).
Proof.
  split_and!.
  - done.
  - intros input. eexists. split_and!; [done | apply lookup_insert_eq |].
    intros k Hk. by apply lookup_insert_ne.
  - intros i. unfold effects_of, gateway_calls.
    destruct i; unfold getWebhookActionAndData, verify_signature, payment_event;
      run_method;
      repeat (case_match; simplify_eq/=);
      repeat match goal with
             | |- Forall _ [] => apply Forall_nil_2
             | |- Forall _ (_ :: _) => apply Forall_cons_2
             end;
      unfold create_or_fetch_order; simpl; auto.
Qed.

(** C7. [getPaymentStatus] always settles with ["pending"] or
    ["authorized"], and [getWebhookActionAndData] always settles with one of
    ["authorized"], ["captured"], ["failed"], ["not_supported"]. *)
Theorem results_in_vocabulary (options_ : Options) w (zero : BigNumber) :
  new_BigNumber (VNum 0) = inr zero →
  (∀ input, ∃ r, outcome (getPaymentStatus input w) = inr r
      ∧ out_status r ∈ [Some "pending"; Some "authorized"])
  ∧ (∀ payload, ∃ r, outcome (getWebhookActionAndData options_ payload w) = inr r
      ∧ action r ∈ ["authorized"; "captured"; "failed"; "not_supported"]).
Proof.
  intros Hzero. split.
  - intros [data]. run_method. unfold map_order_status.
    repeat (case_match; simplify_eq/=); eexists; (split; [done|]); set_solver.
  - intros payload.
    unfold getWebhookActionAndData, verify_signature, payment_event. run_method.
    repeat (first [rewrite Hzero | case_match]; simplify_eq/=);
      eexists; (split; [done|]); set_solver.
Qed.

(** Without a usable secret the method consults neither the headers nor the
    raw body: its run is a function of the parsed body alone. *)
Lemma webhook_reads_only_data_without_secret
    (options_ : Options) (p1 p2 : WebhookPayload) w :
  webhook_secret options_ = None ∨ webhook_secret options_ = Some "" →
  wp_data p1 = wp_data p2 →
  getWebhookActionAndData options_ p1 w = getWebhookActionAndData options_ p2 w.
Proof.
  intros Hsec Hdata.
  assert (Hauth : ∀ p, authenticated options_ p).
  { intros p. unfold authenticated. destruct Hsec as [-> | ->]; auto. }
  rewrite (webhook_after_check _ p1 _ (verify_signature_pass _ _ _ (Hauth p1))).
  rewrite (webhook_after_check _ p2 _ (verify_signature_pass _ _ _ (Hauth p2))).
  unfold getWebhookActionAndData, verify_signature. simpl. by rewrite Hdata.
Qed.

(** C8. Without a usable webhook secret no signature is verified: two
    payloads that differ only in the [x-razorpay-signature] header (present,
    absent, any value) get the same result. *)
Theorem webhook_unverified_without_secret
    (options_ : Options) (p1 p2 : WebhookPayload) w :
  webhook_secret options_ = None ∨ webhook_secret options_ = Some "" →
  wp_data p1 = wp_data p2 →
  wp_rawData p1 = wp_rawData p2 →
  (∀ k, k ≠ "x-razorpay-signature" → wp_headers p1 !! k = wp_headers p2 !! k) →
  getWebhookActionAndData options_ p1 w = getWebhookActionAndData options_ p2 w.
Proof.
  intros Hsec Hdata _ _. by apply webhook_reads_only_data_without_secret.
Qed.

(** C10 (amended). [refundPayment] makes no gateway call and never throws: it
    settles with the stored data plus [refunded_amount], the requested
    amount, and [refunded_at], the time of the call, every other field
    unchanged; the result depends on the input and on that time alone. *)
Theorem refundPayment_marks_locally (input : RefundPaymentInput) w :
  (∃ data' : object,
      refundPayment input w = ([], inr {| out_status := None; out_data := Some data' |})
      ∧ data' !! "refunded_amount" = Some (refund_amount input)
      ∧ data' !! "refunded_at" = Some (VStr (Date_toISOString w))
      ∧ ∀ k, k ≠ "refunded_amount" → k ≠ "refunded_at" →
             data' !! k = Js.spread (refund_data input) !! k)
  ∧ (∀ w', Date_toISOString w' = Date_toISOString w →
           refundPayment input w' = refundPayment input w).
Proof.
  split.
  - eexists. split_and!; [done | | apply lookup_insert_eq |].
    + by rewrite lookup_insert_ne, lookup_insert_eq.
    + intros k Ha Hat. by rewrite !lookup_insert_ne.
  - intros w' Hclock. run_method. by rewrite Hclock.
Qed.

End Correctness.

(** ** The theorems at work on the sample data *)

Lemma webhook_signature_mismatch_fails_witness :
  outcome (getWebhookActionAndData (H:=Sample.decoding_host) Sample.with_secret
             (Sample.buffer_webhook "payment.captured" "forged")
             (Sample.world "paid" Sample.noon))
  = inr (@Build_WebhookActionResult Sample.decoding_host "failed" (VStr "") (VNum 0)).
Proof.
  apply (webhook_signature_mismatch_fails (H:=Sample.decoding_host)
           Sample.with_secret "whsec").
  - reflexivity.
  - discriminate.
  - reflexivity.
  - vm_compute. discriminate.
Defined.

(** C1, as first stated, fails on a Buffer body that is not valid UTF-8: the
    header below is not the HMAC of the raw bytes, only that of their
    decoding, and the payload is accepted all the same. *)
Lemma webhook_signs_decoded_body :
  Js.get (wp_headers (Sample.buffer_webhook "payment.captured"
                        (Sample.sample_mac "whsec"
                           (Sample.decode_lossy Sample.raw_bytes))))
    "x-razorpay-signature"
  ≠ VStr (createHmac_sha256_hex (Host:=Sample.decoding_host) "whsec"
            (String.string_of_list_byte Sample.raw_bytes))
  ∧ outcome (getWebhookActionAndData (H:=Sample.decoding_host) Sample.with_secret
               (Sample.buffer_webhook "payment.captured"
                  (Sample.sample_mac "whsec" (Sample.decode_lossy Sample.raw_bytes)))
               (Sample.world "paid" Sample.noon))
    = inr (@Build_WebhookActionResult Sample.decoding_host
             "captured" (VStr "order_1700000000000") (VNum 49900)).
Proof. split; [vm_compute; discriminate | reflexivity]. Qed.



Lemma webhook_other_event_witness :
  outcome (getWebhookActionAndData (H:=Sample.host) Sample.without_secret
             (Sample.unsigned_webhook "refund.processed")
             (Sample.world "paid" Sample.noon))
  = inr (@Build_WebhookActionResult Sample.host "not_supported" (VStr "") (VNum 0)).
Proof.
  apply (webhook_other_event (H:=Sample.host)).
  - exact I.
  - vm_compute. discriminate.
  - vm_compute. discriminate.
  - vm_compute. discriminate.
  - reflexivity.
Defined.

Lemma getPaymentStatus_table_witness :
  outcome (getPaymentStatus (H:=Sample.host) {| in_data := Some Sample.stored |}
             (Sample.world "attempted" Sample.noon))
  = inr {| out_status := Some "pending";
           out_data := Some (<["order_status" := VStr "attempted"]> Sample.stored) |}.
Proof.
  apply (getPaymentStatus_table (H:=Sample.host) Sample.stored
           (Sample.gateway_order "attempted")).
  - reflexivity.
  - reflexivity.
  - apply list_elem_of_further, list_elem_of_here.
Defined.

Lemma getPaymentStatus_fetch_error_witness :
  outcome (getPaymentStatus (H:=Sample.host) {| in_data := Some Sample.unknown_order |}
             (Sample.world "paid" Sample.noon))
  = inr {| out_status := Some "pending"; out_data := None |}.
Proof.
  apply (getPaymentStatus_fetch_error (H:=Sample.host) Sample.unknown_order
           (Sample.world "paid" Sample.noon)
           (Rejected {[ "statusCode" := VNum 400 ]})).
  reflexivity.
Defined.

Lemma authorizePayment_always_authorized_witness :
  outcome (authorizePayment (H:=Sample.host) {| in_data := Some Sample.stored |}
             (Sample.world "created" Sample.noon))
  = inr {| out_status := Some "authorized";
           out_data := Some (<["authorized_at" := VStr Sample.noon]>
                               (<["order_status" := VStr "created"]> Sample.stored)) |}.
Proof.
  apply (authorizePayment_always_authorized (H:=Sample.host) Sample.stored
           (Sample.gateway_order "created") (Sample.world "created" Sample.noon)).
  reflexivity.
Defined.

Lemma results_in_vocabulary_witness :
  (∀ input, ∃ r,
      outcome (getPaymentStatus (H:=Sample.host) input (Sample.world "paid" Sample.noon))
      = inr r
      ∧ out_status r ∈ [Some "pending"; Some "authorized"])
  ∧ (∀ payload, ∃ r,
      outcome (getWebhookActionAndData (H:=Sample.host) Sample.with_secret payload
                 (Sample.world "paid" Sample.noon)) = inr r
      ∧ action r ∈ ["authorized"; "captured"; "failed"; "not_supported"]).
Proof.
  apply (results_in_vocabulary (H:=Sample.host) Sample.with_secret
           (Sample.world "paid" Sample.noon) (VNum 0)).
  reflexivity.
Defined.

Lemma webhook_unverified_without_secret_witness :
  getWebhookActionAndData (H:=Sample.host) Sample.without_secret
    (Sample.webhook "payment.captured" "forged") (Sample.world "paid" Sample.noon)
  = getWebhookActionAndData (H:=Sample.host) Sample.without_secret
      (Sample.unsigned_webhook "payment.captured") (Sample.world "paid" Sample.noon).
Proof.
  apply (webhook_unverified_without_secret (H:=Sample.host)).
  - left. reflexivity.
  - reflexivity.
  - reflexivity.
  - intros k Hk. unfold Sample.webhook, Sample.unsigned_webhook. simpl.
    rewrite lookup_singleton_ne by congruence. symmetry. apply lookup_empty.
Defined.

(** C10, as first stated, fails: the same refund requested at two different
    times settles with two different results, so the result is not a function
    of the input alone. *)
Lemma refundPayment_result_varies_with_time :
  ¬ (∀ (input : RefundPaymentInput) (w1 w2 : World),
       outcome (refundPayment (H:=Sample.host) input w1)
       = outcome (refundPayment (H:=Sample.host) input w2)).
Proof.
  intros Hpure.
  specialize (Hpure Sample.refund_of_stored
                (Sample.world "paid" Sample.noon) (Sample.world "paid" Sample.midnight)).
  apply (f_equal (λ r, match r with
                       | inr out => Js.spread (out_data out) !! "refunded_at"
                       | inl _ => None
                       end)) in Hpure.
  vm_compute in Hpure. discriminate.
Qed.

(** ** Options and configuration *)

Lemma truthy_process_env (env : gmap string string) (name : string) :
  Js.truthy (process_env env name) = true
  ↔ ∃ s, env !! name = Some s ∧ s ≠ "".
Proof.
  unfold process_env. destruct (env !! name) as [s|]; simpl.
  - rewrite negb_true_iff, String.eqb_neq. naive_solver.
  - naive_solver.
Qed.

(** X1. [validateOptions] looks at [key_id] first and [key_secret] second and
    at nothing else: it returns exactly when both are truthy, blames [key_id]
    whenever that one is falsy, and two option objects that agree on the two
    keys validate alike. *)
Theorem validateOptions_checks_two_keys (options : object) :
  (validateOptions options = inr ()
   ↔ Js.truthy (Js.get options "key_id") = true
     ∧ Js.truthy (Js.get options "key_secret") = true)
  ∧ (Js.truthy (Js.get options "key_id") = false →
     validateOptions options
     = inl (MedusaError INVALID_DATA
              "Razorpay key_id is required in the provider's options."))
  ∧ (Js.truthy (Js.get options "key_id") = true →
     Js.truthy (Js.get options "key_secret") = false →
     validateOptions options
     = inl (MedusaError INVALID_DATA
              "Razorpay key_secret is required in the provider's options."))
  ∧ (∀ options' : object,
       options' !! "key_id" = options !! "key_id" →
       options' !! "key_secret" = options !! "key_secret" →
       validateOptions options' = validateOptions options).
Proof.
  unfold validateOptions. split_and!.
  - destruct (Js.truthy (Js.get options "key_id")),
      (Js.truthy (Js.get options "key_secret")); simpl; naive_solver.
  - by intros ->.
  - by intros -> ->.
  - intros options' Hid Hsecret. unfold Js.get. by rewrite Hid, Hsecret.
Qed.

(** X2. The options the configuration hands to the provider pass
    [validateOptions] exactly when [RAZORPAY_ID] and [RAZORPAY_SECRET] are
    both set to non-empty strings; [RAZORPAY_WEBHOOK_SECRET] plays no part. *)
Theorem configured_options_valid_iff (env : gmap string string) :
  validateOptions (razorpay_options env) = inr ()
  ↔ (∃ id, env !! "RAZORPAY_ID" = Some id ∧ id ≠ "")
    ∧ (∃ secret, env !! "RAZORPAY_SECRET" = Some secret ∧ secret ≠ "").
Proof.
  rewrite <- !truthy_process_env. unfold validateOptions, razorpay_options, Js.get.
  rewrite lookup_insert_eq, lookup_insert_ne, lookup_insert_eq by done. simpl.
  destruct (Js.truthy (process_env env "RAZORPAY_ID")),
    (Js.truthy (process_env env "RAZORPAY_SECRET")); simpl; naive_solver.
Qed.

(** X3. The configured [jwtSecret] and [cookieSecret] are never missing or
    empty: each is the variable's value when that is a non-empty string, and
    the fixed default ["supersecret"] when the variable is unset or empty. *)
Theorem http_secrets_default (env : gmap string string) (field name : string) :
  (field, name) ∈ [("jwtSecret", "JWT_SECRET"); ("cookieSecret", "COOKIE_SECRET")] →
  ∃ s, http env !! field = Some (VStr s) ∧ s ≠ ""
       ∧ (env !! name = Some s
          ∨ (s = "supersecret" ∧ (env !! name = None ∨ env !! name = Some ""))).
Proof.
  intros Hin.
  assert (Hor : ∃ s, Js.or (process_env env name) (VStr "supersecret") = VStr s
                     ∧ s ≠ ""
                     ∧ (env !! name = Some s
                        ∨ (s = "supersecret"
                           ∧ (env !! name = None ∨ env !! name = Some "")))).
  { unfold Js.or, process_env. destruct (env !! name) as [v|]; simpl.
    - destruct (String.eqb_spec v ""); simpl; naive_solver.
    - naive_solver. }
  destruct Hor as (s & Hs & Hne & Hcases). exists s. split; [|done].
  unfold http.
  repeat (apply elem_of_cons in Hin as [[= -> ->] | Hin];
          [by rewrite <- Hs; simplify_map_eq|]).
  by apply elem_of_nil in Hin.
Qed.

(** X4. Database logging is switched off exactly when [NODE_ENV] is the
    string ["production"]; an unset [NODE_ENV] leaves it on. *)
Theorem databaseLogging_off_iff_production (env : gmap string string) :
  (projectConfig env !! "databaseLogging" = Some (VBool false)
   ↔ env !! "NODE_ENV" = Some "production")
  ∧ (projectConfig env !! "databaseLogging" = Some (VBool true)
     ↔ env !! "NODE_ENV" ≠ Some "production").
Proof.
  unfold projectConfig. simplify_map_eq. unfold process_env.
  destruct (env !! "NODE_ENV") as [v|]; simpl; [|naive_solver].
  destruct (String.eqb_spec v "production"); simpl; naive_solver.
Qed.

Lemma http_secrets_default_witness :
  ∃ s, http Sample.env !! "jwtSecret" = Some (VStr s) ∧ s ≠ ""
       ∧ (Sample.env !! "JWT_SECRET" = Some s
          ∨ (s = "supersecret"
             ∧ (Sample.env !! "JWT_SECRET" = None ∨ Sample.env !! "JWT_SECRET" = Some ""))).
Proof.
  apply (http_secrets_default Sample.env "jwtSecret" "JWT_SECRET").
  apply list_elem_of_here.
Defined.

(** ** The lifecycle methods beyond the status and webhook tables *)

Section Lifecycle.
Context `{Host}.
Implicit Types (w : World) (data order : object).

(** Unfolds a method and the steps of its body. *)
Ltac step_through :=
  unfold failure_of, effects_of, thrown_by, gateway_calls,
    getWebhookActionAndData, verify_signature, payment_event,
    getPaymentStatus, authorizePayment, capturePayment, retrievePayment,
    initiatePayment, updatePayment, refundPayment, cancelPayment, deletePayment,
    try_catch, data_member, call_toString, razorpay_orders_fetch,
    razorpay_orders_create, logger_info, logger_error, new_Date_toISOString,
    Date_now_, settle, outcome, trace,
    mbind, Task_bind, mret, Task_ret, mthrow, Task_throw; simpl.

(** X5. Whatever goes wrong inside [initiatePayment], [authorizePayment],
    [capturePayment] or [retrievePayment], the caller only ever sees a
    [MedusaError] of type [PAYMENT_AUTHORIZATION_ERROR]; the other six
    methods never reject at all. *)
Theorem failures_are_wrapped (options_ : Options) (i : invocation) w (zero : BigNumber) :
  new_BigNumber (VNum 0) = inr zero →
  match i with
  | InitiatePayment _ | AuthorizePayment _ | CapturePayment _ | RetrievePayment _ =>
      ∀ e, failure_of options_ i w = Some e →
           ∃ message, e = MedusaError PAYMENT_AUTHORIZATION_ERROR message
  | _ => failure_of options_ i w = None
  end.
Proof.
  intros Hzero. destruct i; step_through;
    repeat (first [rewrite Hzero | case_match]; simplify_eq/=);
    try done; intros e [= <-]; eauto.
Qed.

(** X6. An invocation sends at most one request to the gateway, and
    [capturePayment], [getWebhookActionAndData], [updatePayment],
    [deletePayment], [cancelPayment] and [refundPayment] send none. *)
Theorem at_most_one_gateway_call (options_ : Options) (i : invocation) w :
  match i with
  | InitiatePayment _ | AuthorizePayment _ | GetPaymentStatus _ | RetrievePayment _ =>
      length (gateway_calls (effects_of options_ i w)) ≤ 1
  | _ => gateway_calls (effects_of options_ i w) = []
  end.
Proof.
  destruct i; step_through;
    repeat (case_match; simplify_eq/=); simpl; first [done | lia].
Qed.

(** X7. [authorizePayment] settles exactly when there is stored data and the
    gateway returns the order with the stored id; it then reports
    ["authorized"] and adds [order_status] and [authorized_at] to the data. *)
Theorem authorizePayment_succeeds_iff (input : PaymentInput) w (r : PaymentOutput) :
  outcome (authorizePayment input w) = inr r
  ↔ ∃ data order,
      in_data input = Some data
      ∧ orders_fetch w (Js.get data "id") = inr order
      ∧ r = {| out_status := Some "authorized";
               out_data := Some (<["authorized_at" := VStr (Date_toISOString w)]>
                                   (<["order_status" := Js.get order "status"]> data)) |}.
Proof.
  destruct input as [[data|]]; step_through.
  - destruct (orders_fetch w (Js.get data "id")) as [e|order] eqn:Hfetch; simpl.
    + split; [done | intros (? & ? & [= <-] & Hf & _); congruence].
    + split.
      * intros [= <-]. eauto.
      * intros (? & order' & [= <-] & Hf & ->). congruence.
  - split; [done | by intros (? & ? & ? & _)].
Qed.

(** X8. [getPaymentStatus] reports ["authorized"] exactly when there is stored
    data, the fetch succeeds and the fetched order's status is the string
    ["paid"]. *)
Theorem getPaymentStatus_authorized_iff_paid (input : PaymentInput) w :
  (∃ r, outcome (getPaymentStatus input w) = inr r ∧ out_status r = Some "authorized")
  ↔ ∃ data order,
      in_data input = Some data
      ∧ orders_fetch w (Js.get data "id") = inr order
      ∧ Js.get order "status" = VStr "paid".
Proof.
  destruct input as [[data|]]; step_through.
  - destruct (orders_fetch w (Js.get data "id")) as [e|order] eqn:Hfetch; simpl.
    + split; [by intros (? & [= <-] & ?) | intros (? & ? & [= <-] & Hf & _); congruence].
    + unfold map_order_status. split.
      * intros (r & [= <-] & Hst). simpl in Hst. exists data, order.
        split_and!; [done..|].
        repeat case_match; simplify_eq. by apply strict_eq_string_spec.
      * intros (? & order' & [= <-] & Hf & Hpaid).
        assert (order' = order) as -> by congruence.
        eexists. split; [done|]. simpl. by rewrite Hpaid.
  - split; [by intros (? & [= <-] & ?) | by intros (? & ? & ? & _)].
Qed.

(** X9. The four methods that read [data.id] do not contact the gateway when
    the input carries no stored data: [getPaymentStatus] still answers
    ["pending"], while [authorizePayment], [capturePayment] and
    [retrievePayment] reject. *)
Theorem missing_data_stays_local w :
  (gateway_calls (trace (getPaymentStatus {| in_data := None |} w)) = []
   ∧ outcome (getPaymentStatus {| in_data := None |} w)
     = inr {| out_status := Some "pending"; out_data := None |})
  ∧ (gateway_calls (trace (authorizePayment {| in_data := None |} w)) = []
     ∧ ∃ message, outcome (authorizePayment {| in_data := None |} w)
                  = inl (MedusaError PAYMENT_AUTHORIZATION_ERROR message))
  ∧ (gateway_calls (trace (capturePayment {| in_data := None |} w)) = []
     ∧ ∃ message, outcome (capturePayment {| in_data := None |} w)
                  = inl (MedusaError PAYMENT_AUTHORIZATION_ERROR message))
  ∧ (gateway_calls (trace (retrievePayment {| in_data := None |} w)) = []
     ∧ ∃ message, outcome (retrievePayment {| in_data := None |} w)
                  = inl (MedusaError PAYMENT_AUTHORIZATION_ERROR message)).
Proof. split_and!; step_through; eauto. Qed.

(** X10. [capturePayment] on stored data never rejects: it returns the data
    with [status] set to ["captured"], whatever it was, and [captured_at] set
    to the time of the call, every other field unchanged. *)
Theorem capturePayment_marks_captured data w :
  ∃ data' : object,
    outcome (capturePayment {| in_data := Some data |} w)
    = inr {| out_status := None; out_data := Some data' |}
    ∧ data' !! "status" = Some (VStr "captured")
    ∧ data' !! "captured_at" = Some (VStr (Date_toISOString w))
    ∧ ∀ k, k ≠ "status" → k ≠ "captured_at" → data' !! k = data !! k.
Proof.
  eexists. split_and!; [step_through; done | apply lookup_insert_eq | |].
  - by rewrite lookup_insert_ne, lookup_insert_eq.
  - intros k Hs Hc. by rewrite !lookup_insert_ne.
Qed.

(** X11. [updatePayment] ignores the new amount and currency: the run depends
    on the stored data and the clock only, makes no call, and returns the
    stored data with nothing but [updated_at] changed. *)
Theorem updatePayment_ignores_amount
    (amount amount' : value) (currency currency' : string) (stored : option object) w :
  updatePayment {| update_amount := amount'; update_currency_code := currency';
                   update_data := stored |} w
  = updatePayment {| update_amount := amount; update_currency_code := currency;
                     update_data := stored |} w
  ∧ ∃ data' : object,
      updatePayment {| update_amount := amount; update_currency_code := currency;
                       update_data := stored |} w
      = ([], inr {| out_status := None; out_data := Some data' |})
      ∧ data' !! "updated_at" = Some (VStr (Date_toISOString w))
      ∧ ∀ k, k ≠ "updated_at" → data' !! k = Js.spread stored !! k.
Proof.
  split; [done|]. eexists. split_and!; [done | apply lookup_insert_eq |].
  intros k Hk. by apply lookup_insert_ne.
Qed.

(** X12. When the fetch succeeds, [retrievePayment] returns exactly the five
    fields [id], [amount], [currency], [status] and [created_at], each as the
    gateway reported it; nothing of the stored data is passed on. *)
Theorem retrievePayment_returns_gateway_fields data order w :
  orders_fetch w (Js.get data "id") = inr order →
  ∃ fields : object,
    outcome (retrievePayment {| in_data := Some data |} w) = inr fields
    ∧ dom fields = ({["id"; "amount"; "currency"; "status"; "created_at"]} : gset string)
    ∧ ∀ k, k ∈ dom fields → fields !! k = Some (Js.get order k).
Proof.
  intros Hfetch. eexists. split_and!.
  - step_through. by rewrite Hfetch.
  - set_solver.
  - intros k Hk. rewrite !dom_insert_L, dom_singleton_L in Hk.
    set_unfold in Hk. destruct_or!; subst; by simplify_map_eq.
Qed.

(** X13. A payload whose [x-razorpay-signature] header is the hex
    HMAC-SHA256, under the configured secret, of its body as text (the string
    itself, or the Buffer decoded) is processed exactly as if no secret were
    configured: same result, same log, nothing added by the check. *)
Theorem signed_payload_runs_as_unverified
    (options_ : Options) (secret : string) (payload : WebhookPayload) w :
  webhook_secret options_ = Some secret →
  Js.get (wp_headers payload) "x-razorpay-signature"
    = VStr (createHmac_sha256_hex secret
              match wp_rawData payload with
              | RawString text => text
              | RawBuffer bytes => Buffer_toString bytes
              end) →
  getWebhookActionAndData options_ payload w
  = getWebhookActionAndData
      {| key_id := key_id options_; key_secret := key_secret options_;
         webhook_secret := None |} payload w.
Proof.
  intros Hsec Hsig. apply webhook_after_check, verify_signature_pass.
  unfold authenticated. rewrite Hsec. by right.
Qed.

(** X14. A payment event whose body carries no [payload] at all is still
    mapped to its action; the session id is then [undefined] and the amount
    zero. *)
Theorem webhook_event_without_entities
    (options_ : Options) (payload : WebhookPayload) w (event act : string)
    (zero : BigNumber) :
  authenticated options_ payload →
  Js.get (wp_data payload) "event" = VStr event →
  (event, act) ∈ payment_actions →
  nullish (Js.get (wp_data payload) "payload") = true →
  new_BigNumber (VNum 0) = inr zero →
  outcome (getWebhookActionAndData options_ payload w)
  = inr {| action := act; session_id := VUndefined; amount := zero |}.
Proof.
  intros Hauth Hev Hact Hnull Hzero.
  rewrite (webhook_after_check _ _ _ (verify_signature_pass _ _ _ Hauth)).
  step_through. unfold paymentEntity, orderEntity. rewrite Hev.
  assert (Hp : ∀ k, Js.opt_member (Js.get (wp_data payload) "payload") k = VUndefined).
  { intros k. by destruct (Js.get (wp_data payload) "payload"). }
  rewrite !Hp. unfold payment_actions in Hact.
  repeat (apply elem_of_cons in Hact as [[= -> ->] | Hact];
          [unfold Js.or; simpl; by rewrite Hzero|]).
  by apply elem_of_nil in Hact.
Qed.

(** X15. Refunds are not added up: after a second [refundPayment] on the
    data the first one returned, [refunded_amount] is the second amount and
    [refunded_at] the second time; the other stored fields are as they were. *)
Theorem refundPayment_keeps_last_amount
    (first second : value) (stored : option object) (w1 w2 : World) :
  ∃ data1 data2 : object,
    outcome (refundPayment {| refund_amount := first; refund_data := stored |} w1)
    = inr {| out_status := None; out_data := Some data1 |}
    ∧ outcome (refundPayment {| refund_amount := second; refund_data := Some data1 |} w2)
      = inr {| out_status := None; out_data := Some data2 |}
    ∧ data2 !! "refunded_amount" = Some second
    ∧ data2 !! "refunded_at" = Some (VStr (Date_toISOString w2))
    ∧ ∀ k, k ≠ "refunded_amount" → k ≠ "refunded_at" →
           data2 !! k = Js.spread stored !! k.
Proof.
  do 2 eexists. split_and!; [done | done | | apply lookup_insert_eq |].
  - by rewrite lookup_insert_ne, lookup_insert_eq.
  - intros k Ha Hat. rewrite !lookup_insert_ne by done. simpl.
    by rewrite !lookup_insert_ne.
Qed.

(** What a settled [initiatePayment] implies about the world and the result. *)
Lemma settled_initiatePayment_inv
    (options_ : Options) (input : InitiatePaymentInput) w (r : PaymentOutput) :
  outcome (initiatePayment options_ input w) = inr r →
  ∃ (request order data' : object),
    orders_create w request = inr order
    ∧ r = {| out_status := None; out_data := Some data' |}
    ∧ data' !! "id" = Some (Js.get order "id").
Proof.
  step_through.
  destruct (init_amount input), (init_context input) as [context|]; simpl; try done.
  all: match goal with
       | |- context [orders_create ?w0 ?request] =>
           destruct (orders_create w0 request) as [e|order] eqn:Hcreate
       end; simpl; try done.
  all: intros [= <-]; do 3 eexists; split_and!; [exact Hcreate | done | by simplify_map_eq].
Qed.

(** X16. When [initiatePayment] settles, it has sent one [orders.create]
    request, and the data it returns is the gateway's answer, not the
    request: the order's [id], [amount], [currency], [receipt], [status] and
    [created_at], plus the configured [key_id] and nothing else. *)
Theorem initiatePayment_returns_gateway_order
    (options_ : Options) (input : InitiatePaymentInput) w (r : PaymentOutput) :
  outcome (initiatePayment options_ input w) = inr r →
  ∃ (request order data' : object),
    gateway_calls (trace (initiatePayment options_ input w))
    = [{| resource := "orders"; method := "create"; argument := VObj request |}]
    ∧ orders_create w request = inr order
    ∧ r = {| out_status := None; out_data := Some data' |}
    ∧ dom data' = ({["id"; "amount"; "currency"; "receipt"; "status";
                     "created_at"; "key_id"]} : gset string)
    ∧ data' !! "key_id" = Some (VStr (key_id options_))
    ∧ ∀ k, k ∈ dom data' → k ≠ "key_id" → data' !! k = Some (Js.get order k).
Proof.
  step_through.
  destruct (init_amount input), (init_context input) as [context|]; simpl; try done.
  all: match goal with
       | |- context [orders_create ?w0 ?request] =>
           destruct (orders_create w0 request) as [e|order] eqn:Hcreate
       end; simpl; try done.
  all: intros [= <-]; do 3 eexists; split_and!; [done | exact Hcreate | done | set_solver | by simplify_map_eq |].
  all: intros k Hk Hkey; rewrite !dom_insert_L, dom_singleton_L in Hk;
    set_unfold in Hk; destruct_or!; subst; by simplify_map_eq.
Qed.

(** X17. [initiatePayment] contacts the gateway exactly when the amount is
    neither [undefined] nor [null] and a context is given; the request is then
    an [orders.create] whose [amount] is the given amount parsed, multiplied
    by 100 and rounded, and whose [currency] is the given code in upper
    case. *)
Theorem initiatePayment_request
    (options_ : Options) (input : InitiatePaymentInput) w :
  (gateway_calls (trace (initiatePayment options_ input w)) ≠ []
   ↔ nullish (init_amount input) = false ∧ is_Some (init_context input))
  ∧ ∀ c, c ∈ gateway_calls (trace (initiatePayment options_ input w)) →
      resource c = "orders" ∧ method c = "create"
      ∧ ∃ request : object,
          argument c = VObj request
          ∧ request !! "amount"
            = Some (VNum (Math_round
                            (parseFloat (ToString (init_amount input)) * 100)%float))
          ∧ request !! "currency"
            = Some (VStr (toUpperCase (init_currency_code input))).
Proof.
  step_through.
  destruct (init_amount input), (init_context input) as [context|]; simpl.
  all: try match goal with
       | |- context [orders_create ?w0 ?request] =>
           destruct (orders_create w0 request) as [e|order]
       end; simpl.
  all: split; [split|].
  all: try (intros c Hc; apply elem_of_nil in Hc; done).
  all: try (intros c Hc; apply list_elem_of_singleton in Hc as ->; simpl;
    split_and!; [done..|]; eexists; split_and!; [done | by simplify_map_eq..]).
  all: try done.
  all: try (intros _; split; [done | by eexists]).
  all: try (by intros [? [? ?]]).
  all: by intros [? ?].
Qed.

(** X18. The data [initiatePayment] returns is what [authorizePayment] needs:
    authorizing with it fetches the very order id the gateway gave at
    creation. *)
Theorem authorize_fetches_created_order
    (options_ : Options) (input : InitiatePaymentInput) (w w' : World)
    (r : PaymentOutput) :
  outcome (initiatePayment options_ input w) = inr r →
  ∃ request order : object,
    orders_create w request = inr order
    ∧ gateway_calls (trace (authorizePayment {| in_data := out_data r |} w'))
      = [{| resource := "orders"; method := "fetch";
            argument := Js.get order "id" |}].
Proof.
  intros Hr.
  destruct (settled_initiatePayment_inv _ _ _ _ Hr)
    as (request & order & data' & Hcreate & -> & Hid).
  exists request, order. split; [done|].
  assert (Js.get data' "id" = Js.get order "id") as Hget
    by (unfold Js.get at 1; by rewrite Hid).
  step_through. rewrite Hget.
  by destruct (orders_fetch w' (Js.get order "id")).
Qed.

End Lifecycle.

Lemma failures_are_wrapped_witness :
  failure_of (H:=Sample.host) Sample.with_secret
    (GetWebhookActionAndData (Sample.webhook "payment.captured" "forged"))
    (Sample.world "paid" Sample.noon)
  = None.
Proof.
  exact (failures_are_wrapped (H:=Sample.host) Sample.with_secret
           (GetWebhookActionAndData (Sample.webhook "payment.captured" "forged"))
           (Sample.world "paid" Sample.noon) (VNum 0) eq_refl).
Defined.

Lemma retrievePayment_returns_gateway_fields_witness :
  ∃ fields : object,
    outcome (retrievePayment (H:=Sample.host) {| in_data := Some Sample.stored |}
               (Sample.world "paid" Sample.noon)) = inr fields
    ∧ dom fields = ({["id"; "amount"; "currency"; "status"; "created_at"]} : gset string)
    ∧ ∀ k, k ∈ dom fields → fields !! k = Some (Js.get (Sample.gateway_order "paid") k).
Proof.
  apply (retrievePayment_returns_gateway_fields (H:=Sample.host) Sample.stored
           (Sample.gateway_order "paid") (Sample.world "paid" Sample.noon)).
  reflexivity.
Defined.

Lemma signed_payload_runs_as_unverified_witness :
  getWebhookActionAndData (H:=Sample.decoding_host) Sample.with_secret
    (Sample.buffer_webhook "payment.captured"
       (Sample.sample_mac "whsec" (Sample.decode_lossy Sample.raw_bytes)))
    (Sample.world "paid" Sample.noon)
  = getWebhookActionAndData (H:=Sample.decoding_host)
      {| key_id := key_id Sample.with_secret;
         key_secret := key_secret Sample.with_secret;
         webhook_secret := None |}
      (Sample.buffer_webhook "payment.captured"
       (Sample.sample_mac "whsec" (Sample.decode_lossy Sample.raw_bytes)))
      (Sample.world "paid" Sample.noon).
Proof.
  apply (signed_payload_runs_as_unverified (H:=Sample.decoding_host)
           Sample.with_secret "whsec").
  - reflexivity.
  - reflexivity.
Defined.

Lemma webhook_event_without_entities_witness :
  outcome (getWebhookActionAndData (H:=Sample.host) Sample.without_secret
             (Sample.bare_event "payment.captured") (Sample.world "paid" Sample.noon))
  = inr (@Build_WebhookActionResult Sample.host "captured" VUndefined (VNum 0)).
Proof.
  apply (webhook_event_without_entities (H:=Sample.host) Sample.without_secret
           (Sample.bare_event "payment.captured") (Sample.world "paid" Sample.noon)
           "payment.captured" "captured").
  - exact I.
  - reflexivity.
  - apply list_elem_of_further, list_elem_of_here.
  - reflexivity.
  - reflexivity.
Defined.

Lemma initiatePayment_returns_gateway_order_witness :
  ∃ (request order data' : object),
    gateway_calls (trace (initiatePayment (H:=Sample.host) Sample.without_secret
                            Sample.checkout (Sample.world "created" Sample.noon)))
    = [{| resource := "orders"; method := "create"; argument := VObj request |}]
    ∧ orders_create (Sample.world "created" Sample.noon) request = inr order
    ∧ Sample.checkout_result = {| out_status := None; out_data := Some data' |}
    ∧ dom data' = ({["id"; "amount"; "currency"; "receipt"; "status";
                     "created_at"; "key_id"]} : gset string)
    ∧ data' !! "key_id" = Some (VStr (key_id Sample.without_secret))
    ∧ ∀ k, k ∈ dom data' → k ≠ "key_id" → data' !! k = Some (Js.get order k).
Proof.
  apply (initiatePayment_returns_gateway_order (H:=Sample.host)).
  vm_compute. reflexivity.
Defined.

Lemma authorize_fetches_created_order_witness :
  ∃ request order : object,
    orders_create (Sample.world "created" Sample.noon) request = inr order
    ∧ gateway_calls
        (trace (authorizePayment (H:=Sample.host)
                  {| in_data := out_data Sample.checkout_result |}
                  (Sample.world "paid" Sample.midnight)))
      = [{| resource := "orders"; method := "fetch"; argument := Js.get order "id" |}].
Proof.
  apply (authorize_fetches_created_order (H:=Sample.host) Sample.without_secret
           Sample.checkout (Sample.world "created" Sample.noon)).
  vm_compute. reflexivity.
Defined.
